(** * User permission checking (package [permission])

    A shallow embedding of the strategy registry, the two checkers
    ([defaultChecker], [podTerminalChecker]) and the canonicalizer
    [getCasbinItemsFromReqPermission], together with the properties the
    specification states about them.

    The checkers talk to collaborators that live in other files of the
    repository (package [pmsplugin], [baseChecker], the logger).  They are
    interfaces here: a type class per package, every theorem holds for all
    of their implementations.

    The second part embeds the container runtime discovery of package
    [cvdocker] ([NewContainer], [GetActiveContainers]). *)

From Stdlib Require Import ZArith String List Lia DecimalString.
From stdpp Require Import base decidable option strings gmap.
Import ListNotations.

Local Open Scope string_scope.
Local Open Scope Z_scope.

(** ** Go values *)

(** Go's [error] values as this package builds them with [fmt.Errorf]:
    [Errorf msg] is an error with the finished message [msg];
    [ErrorfW prefix cause] is [fmt.Errorf(prefix + "%w", cause)], which
    wraps [cause].  Errors handed back by the collaborators are values of
    the same type. *)
Inductive error : Type :=
| Errorf (msg : string)
| ErrorfW (prefix : string) (cause : error).

(** [err.Error()] *)
Fixpoint Error (e : error) : string :=
  match e with
  | Errorf msg => msg
  | ErrorfW prefix cause => prefix ++ Error cause
  end.

(** [errors.Unwrap] *)
Definition Unwrap (e : error) : option error :=
  match e with
  | Errorf _ => None
  | ErrorfW _ cause => Some cause
  end.

(** [strconv.Itoa] on a Go [int], kept as an unbounded [Z]: no arithmetic
    is done on it, so no wrap-around can occur. *)
Definition Itoa (i : Z) : string := NilZero.string_of_int (Z.to_int i).

(** [view.ReqPermission], with the fields this package reads. *)
Record ReqPermission : Type := {
  UserId : Z;
  ObjectType : string;
  ObjectIdx : string;
  SubResource : string;
  Acts : list string;
  DomainType : string;
  DomainId : string;
}.

(** Element-by-element comparison of two action slices. *)
Fixpoint Acts_eqb (a b : list string) : bool :=
  match a, b with
  | [], [] => true
  | x :: a', y :: b' => String.eqb x y && Acts_eqb a' b'
  | _, _ => false
  end.

(** Field-by-field comparison of two requests. *)
Definition ReqPermission_eqb (a b : ReqPermission) : bool :=
  Z.eqb (UserId a) (UserId b)
  && String.eqb (ObjectType a) (ObjectType b)
  && String.eqb (ObjectIdx a) (ObjectIdx b)
  && String.eqb (SubResource a) (SubResource b)
  && Acts_eqb (Acts a) (Acts b)
  && String.eqb (DomainType a) (DomainType b)
  && String.eqb (DomainId a) (DomainId b).

Record casbinItemsFromReqPermission : Type := {
  ReqSub : string;
  ReqObj : string;
  ReqAct : string;
  ReqDom : string;
}.

(** ** Package [pmsplugin]: constants, tables and pure string helpers

    None of these is defined in the files at hand; they are the fields of
    an interface.  [any] stands for [interface{}]. *)
Class PmsStatic : Type := {
  PrefixTable : string;
  PrefixRoute : string;
  PrefixUser : string;
  PrefixSubRsrc : string;
  AppPodTerminal : string;
  (* a Go map read only through [_, valid := PermittedPrefixMap[k]] *)
  PermittedPrefixMap : gset string;
  Assemble2CasbinStr : list string -> string * option error;
  JointActs2RuleActStr : list string -> string;
  any : Type;
  Convert2InterfaceSlice : list string -> list any;
}.

(** ** The canonicalizer *)

Section Canonicalizer.
Context `{PS : PmsStatic}.

(** check reqPermission validation, and trans it to itemStrings of
    casbinRule *)
Definition getCasbinItemsFromReqPermission (reqPms : ReqPermission)
  : casbinItemsFromReqPermission * option error :=
  let resp := {| ReqSub := ""; ReqObj := ""; ReqAct := ""; ReqDom := "" |} in
  if Z.eqb (UserId reqPms) 0
     || String.eqb (ObjectType reqPms) ""
     || String.eqb (ObjectIdx reqPms) ""
     || String.eqb (SubResource reqPms) ""
  then
    (resp, Some (Errorf
       "The UserId, ObjectType, ObjectIdx and SubRersource cannot be empty. "))
  else if negb (bool_decide (ObjectType reqPms ∈ PermittedPrefixMap)) then
    (resp, Some (Errorf ("ObjectType(" ++ ObjectType reqPms ++ ") is invalid")))
  else
    let '(reqSub, _) :=
      Assemble2CasbinStr [PrefixUser; Itoa (UserId reqPms)] in
    let '(reqObj, _) :=
      Assemble2CasbinStr
        [ObjectType reqPms; ObjectIdx reqPms; PrefixSubRsrc; SubResource reqPms] in
    let reqAct := JointActs2RuleActStr (Acts reqPms) in
    let reqAct := if String.eqb reqAct "" then "*" else reqAct in
    let '(reqDom, err) :=
      Assemble2CasbinStr [DomainType reqPms; DomainId reqPms] in
    let reqDom := match err with Some _ => "*" | None => reqDom end in
    ({| ReqSub := reqSub; ReqObj := reqObj; ReqAct := reqAct; ReqDom := reqDom |},
     None).
End Canonicalizer.

(** ** Reading a result *)

(** The error of a validation failure, as [Check] returns it. *)
Definition is_ValidationError (e : error) : bool :=
  match e with
  | ErrorfW prefix _ => String.eqb prefix "ReqPermission is invalid. "
  | Errorf _ => false
  end.

(** The two validation conditions of the canonicalizer. *)
Definition missing_field (reqPms : ReqPermission) : bool :=
  Z.eqb (UserId reqPms) 0
  || String.eqb (ObjectType reqPms) ""
  || String.eqb (ObjectIdx reqPms) ""
  || String.eqb (SubResource reqPms) "".

Definition invalid_request `{PmsStatic} (reqPms : ReqPermission) : bool :=
  missing_field reqPms
  || negb (bool_decide (ObjectType reqPms ∈ PermittedPrefixMap)).

(** ** The canonicalizer over helpers that need not be functions

    [Assemble2CasbinStr] and [JointActs2RuleActStr] are Go functions
    defined in other files: as far as this file shows, a call may read
    package state, and two calls with the same arguments may differ.
    [Assembles strs r] and [Joins acts s] say that a call with these
    arguments may return this result. *)
Class PmsHelpers : Type := {
  Assembles : list string -> string * option error -> Prop;
  Joins : list string -> string -> Prop;
}.


(** [Canonicalizes reqPms r]: a run of [getCasbinItemsFromReqPermission]
    on [reqPms] may return [r].  One rule per [return] of the source;
    the premises of the third are its four helper calls, in order. *)
Inductive Canonicalizes `{PS : PmsStatic} `{PH : PmsHelpers} (reqPms : ReqPermission)
  : casbinItemsFromReqPermission * option error -> Prop :=
| canon_missing :
    missing_field reqPms = true ->
    Canonicalizes reqPms
      ({| ReqSub := ""; ReqObj := ""; ReqAct := ""; ReqDom := "" |},
       Some (Errorf
         "The UserId, ObjectType, ObjectIdx and SubRersource cannot be empty. "))
| canon_unpermitted :
    missing_field reqPms = false ->
    ObjectType reqPms ∉ PermittedPrefixMap ->
    Canonicalizes reqPms
      ({| ReqSub := ""; ReqObj := ""; ReqAct := ""; ReqDom := "" |},
       Some (Errorf ("ObjectType(" ++ ObjectType reqPms ++ ") is invalid")))
| canon_built (reqSub reqObj reqAct reqDom : string) (e1 e2 err : option error) :
    missing_field reqPms = false ->
    ObjectType reqPms ∈ PermittedPrefixMap ->
    Assembles [PrefixUser; Itoa (UserId reqPms)] (reqSub, e1) ->
    Assembles [ObjectType reqPms; ObjectIdx reqPms; PrefixSubRsrc; SubResource reqPms]
              (reqObj, e2) ->
    Joins (Acts reqPms) reqAct ->
    Assembles [DomainType reqPms; DomainId reqPms] (reqDom, err) ->
    Canonicalizes reqPms
      ({| ReqSub := reqSub;
          ReqObj := reqObj;
          ReqAct := if String.eqb reqAct "" then "*" else reqAct;
          ReqDom := match err with Some _ => "*" | None => reqDom end |},
       None).



(** ** Collaborators with state

    [W] is the state the collaborators read and may change: the rule
    store of the policy engine, the lock table, the user table.  A
    collaborator takes the state and returns its answer with the state it
    leaves. *)

(** Package [pmsplugin]: the policy engine and the root-user lookup. *)
Class PmsEngine (W : Type) `{PmsStatic} : Type := {
  Enforce : string -> string -> string -> string -> W -> (bool * option error) * W;
  EnforceOneInMany : list (list any) -> W -> (bool * option error) * W;
  IsRootWithoutCheckingSysLock : Z -> W -> bool * W;
}.

(** Package [permission], the parts defined in its other files: the
    message constant and the domain-lock gate of [baseChecker], which
    both checkers embed.  The gate is handed [&reqPms]; the specification
    describes it as a lookup of lock state during which nothing is
    written, so it is a query here and leaves the request as it is. *)
Class PermissionEnv (W : Type) : Type := {
  MsgNoPermission : string;
  CheckDomLockIfActWrite : ReqPermission -> W -> option error * W;
}.

Inductive Level : Type := InfoLevel | WarnLevel | ErrorLevel.

(** The [zap] fields attached to a log line. *)
Inductive Field : Type :=
| zapAny (key : string) (data : ReqPermission)
| zapError (err : error).

Section Effects.
Context {W : Type} {PS : PmsStatic} {PE : PmsEngine W} {PV : PermissionEnv W}.

(** What a check does to the outside, in order. *)
Inductive Call : Type :=
| LoggerCall (lvl : Level) (msg : string) (fields : list Field)
| CheckDomLockCall (reqPms : ReqPermission)
| IsRootCall (uid : Z)
| EnforceCall (sub obj act dom : string)
| EnforceOneInManyCall (rules : list (list any)).

(** A computation returns its value, the state it leaves and the calls
    it made. *)
Definition M (A : Type) : Type := W -> A * W * list Call.

Definition ret {A} (a : A) : M A := fun w => (a, w, []).

Definition bind {A B} (m : M A) (k : A -> M B) : M B :=
  fun w =>
    let '(a, w1, t1) := m w in
    let '(b, w2, t2) := k a w1 in
    (b, w2, (t1 ++ t2)%list).

(** Lift a collaborator, recording the call. *)
Definition perform {A} (c : Call) (f : W -> A * W) : M A :=
  fun w => let '(a, w1) := f w in (a, w1, [c]).

Definition Logger (lvl : Level) (msg : string) (fields : list Field) : M unit :=
  fun w => (tt, w, [LoggerCall lvl msg fields]).

Definition value {A} (r : A * W * list Call) : A := fst (fst r).
Definition after {A} (r : A * W * list Call) : W := snd (fst r).
Definition calls {A} (r : A * W * list Call) : list Call := snd r.

(** Does this call reach the policy engine? *)
Definition is_engine_call (c : Call) : bool :=
  match c with
  | EnforceCall _ _ _ _ | EnforceOneInManyCall _ => true
  | _ => false
  end.

Definition engine_calls (t : list Call) : list Call :=
  List.filter is_engine_call t.
End Effects.

Declare Scope go_scope.
Delimit Scope go_scope with go.
Notation "'let*' x ':=' m 'in' k" := (bind m (fun x => k))
  (at level 10, x pattern, m at level 100, k at level 200) : go_scope.
Notation "m ;; k" := (bind m (fun _ => k))
  (at level 100, right associativity) : go_scope.

(** ** The checkers *)

(** The two implementations of the interface [UserPmsChecker]; both are
    empty structs. *)
Inductive checker : Type := defaultChecker | podTerminalChecker.

(** A value of the interface type: [None] is the nil interface. *)
Definition UserPmsChecker : Type := option checker.

Section Checkers.
Context {W : Type} {PS : PmsStatic} {PE : PmsEngine W} {PV : PermissionEnv W}.
Local Open Scope go_scope.

Definition isRootUser (uid : Z) : M bool :=
  if Z.leb uid 0 then ret false
  else perform (IsRootCall uid) (IsRootWithoutCheckingSysLock uid).

(** used for 99% cases (normal) permission check *)
Definition defaultChecker_Check (reqPms : ReqPermission) : M (option error) :=
  Logger InfoLevel "request check permission" [zapAny "data" reqPms] ;;
  (* 1. check permission which has no domain *)
  if String.eqb (ObjectType reqPms) PrefixRoute then
    Logger InfoLevel "==> route always pass currently." [] ;;
    ret None
  else
    (* 2. check req domain lock or not *)
    let* err := perform (CheckDomLockCall reqPms) (CheckDomLockIfActWrite reqPms) in
    match err with
    | Some e => ret (Some e)
    | None =>
      (* 3. normal check by casbin *)
      let* root := isRootUser (UserId reqPms) in
      if root then ret None
      else
        match getCasbinItemsFromReqPermission reqPms with
        | (_, Some err) =>
          let err := ErrorfW "ReqPermission is invalid. " err in
          Logger ErrorLevel (Error err) [] ;;
          ret (Some err)
        | (items, None) =>
          let reqRules : list (list any) := [] in
          let reqRules :=
            (reqRules ++ [Convert2InterfaceSlice
                            [ReqSub items; ReqObj items; ReqAct items; ReqDom items]])%list in
          let* (pmsPassed, err) :=
            perform (EnforceOneInManyCall reqRules) (EnforceOneInMany reqRules) in
          match err with
          | Some e => Logger WarnLevel "reqPerm not pass" [zapError e]
          | None => ret tt
          end ;;
          if negb pmsPassed then ret (Some (Errorf MsgNoPermission))
          else ret None
        end
    end.

(** note, podTerminalChecker.Check for normal user, need
    reqDomainType == "env" && reqDomainId is a valid envId. *)
Definition podTerminalChecker_Check (reqPms : ReqPermission) : M (option error) :=
  Logger InfoLevel "request check permission" [zapAny "data" reqPms] ;;
  (* 2. check req domain lock or not *)
  let* err := perform (CheckDomLockCall reqPms) (CheckDomLockIfActWrite reqPms) in
  match err with
  | Some e => ret (Some e)
  | None =>
    (* 3. normal check by casbin *)
    let* root := isRootUser (UserId reqPms) in
    if root then ret None
    else
      match getCasbinItemsFromReqPermission reqPms with
      | (_, Some err) =>
        let err := ErrorfW "ReqPermission is invalid. " err in
        Logger ErrorLevel (Error err) [] ;;
        ret (Some err)
      | (items, None) =>
        (* 4. check podTerminal permission for normal user *)
        let* (pmsPassed, err) :=
          perform (EnforceCall (ReqSub items) (ReqObj items) (ReqAct items) (ReqDom items))
                  (Enforce (ReqSub items) (ReqObj items) (ReqAct items) (ReqDom items)) in
        match err with
        | Some e => Logger WarnLevel "reqPerm not pass" [zapError e]
        | None => ret tt
        end ;;
        if negb pmsPassed then ret (Some (Errorf MsgNoPermission))
        else ret None
      end
  end.

(** Method dispatch on the interface [UserPmsChecker]. *)
Definition Check (c : checker) (reqPms : ReqPermission) : M (option error) :=
  match c with
  | defaultChecker => defaultChecker_Check reqPms
  | podTerminalChecker => podTerminalChecker_Check reqPms
  end.

(** The first log line of both checkers. *)
Definition entry_log (reqPms : ReqPermission) : Call :=
  LoggerCall InfoLevel "request check permission" [zapAny "data" reqPms].

(** The call each checker makes to the policy engine for a tuple. *)
Definition enforcement (c : checker) (items : casbinItemsFromReqPermission)
  : W -> (bool * option error) * W :=
  match c with
  | defaultChecker =>
    EnforceOneInMany
      [Convert2InterfaceSlice [ReqSub items; ReqObj items; ReqAct items; ReqDom items]]
  | podTerminalChecker =>
    Enforce (ReqSub items) (ReqObj items) (ReqAct items) (ReqDom items)
  end.

Definition enforcement_call (c : checker) (items : casbinItemsFromReqPermission) : Call :=
  match c with
  | defaultChecker =>
    EnforceOneInManyCall
      [Convert2InterfaceSlice [ReqSub items; ReqObj items; ReqAct items; ReqDom items]]
  | podTerminalChecker =>
    EnforceCall (ReqSub items) (ReqObj items) (ReqAct items) (ReqDom items)
  end.

(** Did the check end in a validation error? *)
Definition returns_ValidationError (r : option error * W * list Call) : bool :=
  match value r with
  | Some e => is_ValidationError e
  | None => false
  end.

(** The checker runs the pipeline from the gate on: every checker but
    the default one on a route request. *)
Definition past_route (c : checker) (reqPms : ReqPermission) : Prop :=
  c = defaultChecker -> ObjectType reqPms <> PrefixRoute.
End Checkers.

(** ** The strategy registry *)

Section Strategies.
Context `{PS : PmsStatic}.

(** Special pmsCheckStrategies for special resource permission check
    for user: ObjectType -> SubResource -> UserPmsChecker. *)
Definition strategies : gmap string (gmap string UserPmsChecker) :=
  {[ PrefixTable := {[ AppPodTerminal := Some podTerminalChecker ]} ]}.

(** create a UserPmsChecker Strategy *)
Definition newUserPmsCheckStrategy (objType subResource : string) : UserPmsChecker :=
  match strategies !! objType with
  | None => Some defaultChecker
  | Some subResourceCheckerMap =>
    match subResourceCheckerMap !! subResource with
    | None => Some defaultChecker
    | Some checker => checker
    end
  end.
End Strategies.

(** ** The absent helpers, as the specification describes them *)

(** Modelled from the spec: [pmsplugin.JointActs2RuleActStr] is defined
    outside the files at hand.  "Builds Action by joining all Acts with a
    defined action-separator". *)
Definition spec_JointActs2RuleActStr (sep : string) (acts : list string) : string :=
  String.concat sep acts.

(** Modelled from the spec: [pmsplugin.Assemble2CasbinStr] is defined
    outside the files at hand.  The items are joined "using a reserved
    separator"; for the domain, "if either is empty/unset, Domain is the
    wildcard", and the canonicalizer writes the wildcard exactly when
    this helper reports an error: an empty item is an error. *)
Definition spec_Assemble2CasbinStr (sep : string) (bad : error) (strs : list string)
  : string * option error :=
  if existsb (String.eqb "") strs then ("", Some bad)
  else (String.concat sep strs, None).

(** Modelled from the spec: [baseChecker.CheckDomLockIfActWrite] is
    defined outside the files at hand.  "If the action set implies a write
    operation and the resolved domain is administratively locked, fail
    with DomainLockedError". *)
Definition spec_CheckDomLockIfActWrite {W : Type}
    (implies_write : list string -> bool)
    (IsLocked : string -> string -> W -> bool * W)
    (DomainLockedError : error)
    (reqPms : ReqPermission) (w : W) : option error * W :=
  if implies_write (Acts reqPms) then
    let '(isLocked, w1) := IsLocked (DomainType reqPms) (DomainId reqPms) w in
    (if isLocked then Some DomainLockedError else None, w1)
  else (None, w).

(** ** A concrete configuration

    The collaborators of the specification's scenarios: a rule store that
    lists the permitted tuples, a table of locked domains, a list of root
    users, and an optional engine fault that accompanies every verdict. *)
Module Scenario.
Record World : Type := {
  rules : list (string * string * string * string);
  locked : list (string * string);
  roots : list Z;
  fault : option error;
}.

Definition static : PmsStatic := {|
  PrefixTable := "table";
  PrefixRoute := "route";
  PrefixUser := "user";
  PrefixSubRsrc := "sub";
  AppPodTerminal := "pod-terminal";
  PermittedPrefixMap := {[ "route"; "table" ]};
  Assemble2CasbinStr := spec_Assemble2CasbinStr ":" (Errorf "empty item");
  JointActs2RuleActStr := spec_JointActs2RuleActStr ",";
  any := string;
  Convert2InterfaceSlice := fun items => items;
|}.

Definition allowed (w : World) (sub obj act dom : string) : bool :=
  existsb (fun '(s, o, a, d) =>
             String.eqb s sub && String.eqb o obj
             && String.eqb a act && String.eqb d dom) (rules w).

Definition enforce (sub obj act dom : string) (w : World)
  : (bool * option error) * World :=
  ((allowed w sub obj act dom, fault w), w).

Definition enforceOneInMany (reqRules : list (list string)) (w : World)
  : (bool * option error) * World :=
  ((existsb (fun rule =>
               match rule with
               | [sub; obj; act; dom] => allowed w sub obj act dom
               | _ => false
               end) reqRules, fault w), w).

Definition isRoot (uid : Z) (w : World) : bool * World :=
  (existsb (Z.eqb uid) (roots w), w).

Definition engine : @PmsEngine World static :=
  @Build_PmsEngine World static enforce enforceOneInMany isRoot.

Definition DomainLockedError : error := Errorf "domain is locked".

Definition env : PermissionEnv World := {|
  MsgNoPermission := "no permission";
  CheckDomLockIfActWrite :=
    spec_CheckDomLockIfActWrite
      (existsb (String.eqb "write"))
      (fun dt di w =>
         (existsb (fun '(t, i) => String.eqb t dt && String.eqb i di) (locked w), w))
      DomainLockedError;
|}.

Definition check : checker -> ReqPermission -> World -> option error * World * list Call :=
  @Check World static engine env.

Definition canonicalize : ReqPermission -> casbinItemsFromReqPermission * option error :=
  @getCasbinItemsFromReqPermission static.

(** Nothing permitted, nothing locked, no root user. *)
Definition empty : World :=
  {| rules := []; locked := []; roots := []; fault := None |}.

(** The request of the "generic allow" scenario. *)
Definition read_T1 : ReqPermission := {|
  UserId := 7; ObjectType := "table"; ObjectIdx := "T1"; SubResource := "read";
  Acts := ["select"]; DomainType := ""; DomainId := "";
|}.

Definition allow_read_T1 : World :=
  {| rules := [("user:7", "table:T1:sub:read", "select", "*")];
     locked := []; roots := []; fault := None |}.

(** A write to the locked domain env/prod, by user 1, who is root. *)
Definition write_prod : ReqPermission := {|
  UserId := 1; ObjectType := "table"; ObjectIdx := "T1"; SubResource := "pod-terminal";
  Acts := ["write"]; DomainType := "env"; DomainId := "prod";
|}.

Definition prod_locked : World :=
  {| rules := [("user:1", "table:T1:sub:pod-terminal", "write", "env:prod")];
     locked := [("env", "prod")]; roots := [1]; fault := None |}.

(** A route request that names no user. *)
Definition route_anonymous : ReqPermission := {|
  UserId := 0; ObjectType := "route"; ObjectIdx := "/api/v1/users"; SubResource := "list";
  Acts := []; DomainType := ""; DomainId := "";
|}.

(** A route request of user 7 that writes to env/prod. *)
Definition route_write_prod : ReqPermission := {|
  UserId := 7; ObjectType := "route"; ObjectIdx := "/api/v1/users"; SubResource := "edit";
  Acts := ["write"]; DomainType := "env"; DomainId := "prod";
|}.

(** A table request that names no user. *)
Definition table_anonymous : ReqPermission := {|
  UserId := 0; ObjectType := "table"; ObjectIdx := "T1"; SubResource := "read";
  Acts := ["select"]; DomainType := ""; DomainId := "";
|}.

(** A write to env/prod by user 0. *)
Definition anonymous_write_prod : ReqPermission := {|
  UserId := 0; ObjectType := "table"; ObjectIdx := "T1"; SubResource := "read";
  Acts := ["write"]; DomainType := "env"; DomainId := "prod";
|}.

(** Any action of user 7 on T1, in no domain. *)
Definition any_act_T1 : ReqPermission := {|
  UserId := 7; ObjectType := "table"; ObjectIdx := "T1"; SubResource := "read";
  Acts := []; DomainType := ""; DomainId := "";
|}.

(** User 1 is root; nothing is permitted by rule, nothing is locked. *)
Definition root_only : World :=
  {| rules := []; locked := []; roots := [1]; fault := None |}.


(** A rule store that cannot be read: every verdict comes with a fault. *)
Definition faulty_allow_read_T1 : World :=
  {| rules := [("user:7", "table:T1:sub:read", "select", "*")];
     locked := []; roots := []; fault := Some (Errorf "rule store unavailable") |}.

(** String helpers that fail on every input. *)
Definition failing_static : PmsStatic := {|
  PrefixTable := "table";
  PrefixRoute := "route";
  PrefixUser := "user";
  PrefixSubRsrc := "sub";
  AppPodTerminal := "pod-terminal";
  PermittedPrefixMap := {[ "route"; "table" ]};
  Assemble2CasbinStr := fun _ => ("?", Some (Errorf "cannot assemble"));
  JointActs2RuleActStr := spec_JointActs2RuleActStr ",";
  any := string;
  Convert2InterfaceSlice := fun items => items;
|}.

(** A complete request with a negative user id. *)
Definition negative_user : ReqPermission := {|
  UserId := -1; ObjectType := "table"; ObjectIdx := "T1"; SubResource := "read";
  Acts := ["select"]; DomainType := ""; DomainId := "";
|}.

Definition allow_negative_user : World :=
  {| rules := [("user:-1", "table:T1:sub:read", "select", "*")];
     locked := []; roots := []; fault := None |}.
End Scenario.

(** Further requests and rule stores over the same collaborators. *)
Module Cases.
(** A complete request for an object type outside the permitted set. *)
Definition unknown_type : ReqPermission := {|
  UserId := 7; ObjectType := "dashboard"; ObjectIdx := "D1"; SubResource := "read";
  Acts := ["select"]; DomainType := ""; DomainId := "";
|}.

(** A rule store that would let user 7 read the dashboard. *)
Definition allow_dashboard : Scenario.World :=
  {| Scenario.rules := [("user:7", "dashboard:D1:sub:read", "select", "*")];
     Scenario.locked := []; Scenario.roots := []; Scenario.fault := None |}.

(** Helpers of which the one that joins the actions answers with one
    separator or another, as it pleases. *)
Definition fickle_helpers : PmsHelpers := {|
  Assembles := fun strs r => spec_Assemble2CasbinStr ":" (Errorf "empty item") strs = r;
  Joins := fun acts s =>
    s = spec_JointActs2RuleActStr "," acts \/ s = spec_JointActs2RuleActStr "|" acts;
|}.

(** Two actions of user 7 on T1. *)
Definition read_write_T1 : ReqPermission := {|
  UserId := 7; ObjectType := "table"; ObjectIdx := "T1"; SubResource := "read";
  Acts := ["select"; "insert"]; DomainType := ""; DomainId := "";
|}.
End Cases.

(** ** The exits of a check

    Every run of [Check] leaves by one of five exits.  [CheckRun] lists
    them with what the run returns, the state it leaves and the calls it
    made on the way. *)

Section Exits.
Context {W : Type} {PS : PmsStatic} {PE : PmsEngine W} {PV : PermissionEnv W}.

(** The branch of lines 51-55: only the default checker has it. *)
Definition route_bypass (c : checker) (reqPms : ReqPermission) : bool :=
  match c with
  | defaultChecker => String.eqb (ObjectType reqPms) PrefixRoute
  | podTerminalChecker => false
  end.

Definition is_gate_call (c : Call) : bool :=
  match c with
  | CheckDomLockCall _ => true
  | _ => false
  end.

Definition is_root_call (c : Call) : bool :=
  match c with
  | IsRootCall _ => true
  | _ => false
  end.

Definition gate_calls (t : list Call) : list Call := List.filter is_gate_call t.
Definition root_calls (t : list Call) : list Call := List.filter is_root_call t.

Definition route_log : Call :=
  LoggerCall InfoLevel "==> route always pass currently." [].

Definition invalid_log (cause : error) : Call :=
  LoggerCall ErrorLevel ("ReqPermission is invalid. " ++ Error cause) [].

Definition engine_log (err : option error) : list Call :=
  match err with
  | Some e => [LoggerCall WarnLevel "reqPerm not pass" [zapError e]]
  | None => []
  end.

Inductive CheckRun (c : checker) (reqPms : ReqPermission) (w : W)
  : option error * W * list Call -> Prop :=
| run_route :
    route_bypass c reqPms = true ->
    CheckRun c reqPms w (None, w, [entry_log reqPms; route_log])
| run_refused (e : error) (w1 : W) :
    route_bypass c reqPms = false ->
    CheckDomLockIfActWrite reqPms w = (Some e, w1) ->
    CheckRun c reqPms w (Some e, w1, [entry_log reqPms; CheckDomLockCall reqPms])
| run_root (w1 : W) :
    route_bypass c reqPms = false ->
    CheckDomLockIfActWrite reqPms w = (None, w1) ->
    value (isRootUser (UserId reqPms) w1) = true ->
    CheckRun c reqPms w
      (None, after (isRootUser (UserId reqPms) w1),
       [entry_log reqPms; CheckDomLockCall reqPms]
         ++ calls (isRootUser (UserId reqPms) w1))%list
| run_invalid (w1 : W) (items : casbinItemsFromReqPermission) (cause : error) :
    route_bypass c reqPms = false ->
    CheckDomLockIfActWrite reqPms w = (None, w1) ->
    value (isRootUser (UserId reqPms) w1) = false ->
    getCasbinItemsFromReqPermission reqPms = (items, Some cause) ->
    CheckRun c reqPms w
      (Some (ErrorfW "ReqPermission is invalid. " cause),
       after (isRootUser (UserId reqPms) w1),
       [entry_log reqPms; CheckDomLockCall reqPms]
         ++ calls (isRootUser (UserId reqPms) w1)
         ++ [invalid_log cause])%list
| run_enforced (w1 w3 : W) (items : casbinItemsFromReqPermission)
    (pmsPassed : bool) (err : option error) :
    route_bypass c reqPms = false ->
    CheckDomLockIfActWrite reqPms w = (None, w1) ->
    value (isRootUser (UserId reqPms) w1) = false ->
    getCasbinItemsFromReqPermission reqPms = (items, None) ->
    enforcement c items (after (isRootUser (UserId reqPms) w1)) = ((pmsPassed, err), w3) ->
    CheckRun c reqPms w
      (if pmsPassed then None else Some (Errorf MsgNoPermission),
       w3,
       [entry_log reqPms; CheckDomLockCall reqPms]
         ++ calls (isRootUser (UserId reqPms) w1)
         ++ [enforcement_call c items]
         ++ engine_log err)%list.
End Exits.

(** * Container runtime discovery (package [cvdocker]) *)

Module cvdocker.

Definition containerdSock : string := "/run/containerd/containerd.sock".
Definition dockerSock : string := "/var/run/docker.sock".

(** The fields given to [elog.Panic]. *)
Inductive elogField : Type :=
| FieldErr (err : error)
| FieldValue (v : string).

(** A call returns, or it ends in [elog.Panic], which writes the log
    line and panics. *)
Inductive outcome (A : Type) : Type :=
| Returned (a : A)
| Panicked (msg : string) (fields : list elogField).
Arguments Returned {A} a.
Arguments Panicked {A} msg fields.

(** [manager.Config]: the field this package writes, and the others. *)
Record Config (O : Type) : Type := {
  ClientSocket : string;
  others : O;
}.
Arguments ClientSocket {O} _.
Arguments others {O} _.

(** Component 组件.  The nil map of a fresh component is the empty map. *)
Record Component (O DockerInfo : Type) : Type := {
  config : Config O;
  containerMap : gmap string DockerInfo;
  clientType : string;
}.
Arguments config {O DockerInfo} _.
Arguments containerMap {O DockerInfo} _.
Arguments clientType {O DockerInfo} _.

(** The object [manager.Get] hands out, over the state [S] of the
    container runtime client. *)
Record Manager (O DockerInfo S : Type) : Type := {
  Run : Config O -> S -> S;
  GetAllDockerInfo : S -> (gmap string DockerInfo * option error) * S;
}.
Arguments Run {O DockerInfo S} _ _ _.
Arguments GetAllDockerInfo {O DockerInfo S} _ _.

Section Discovery.
Context {O DockerInfo : Type}.
(** [manager.DefaultConfig()] *)
Variable DefaultConfig : Config O.
(** [utils.PathExist], on the file system as it is during the call. *)
Variable PathExist : string -> bool * option error.

Definition NewContainer : outcome (Component O DockerInfo) :=
  let obj := {| config := DefaultConfig; containerMap := ∅; clientType := "" |} in
  let '(isExistDockerSock, err) := PathExist dockerSock in
  match err with
  | Some e => Panicked "docker sock fail" [FieldErr e]
  | None =>
    let '(isExistContainerdSock, err) := PathExist containerdSock in
    match err with
    | Some e => Panicked "containerd sock fail" [FieldErr e]
    | None =>
      if negb isExistDockerSock && negb isExistContainerdSock then
        Panicked "docker.sock and containerd.sock is empty"
          [FieldValue ("we need " ++ containerdSock ++ " or " ++ dockerSock)]
      else if isExistContainerdSock then
        Returned {| config := {| ClientSocket := containerdSock;
                                 others := others (config obj) |};
                    containerMap := containerMap obj;
                    clientType := "containerd" |}
      else if isExistDockerSock then
        Returned {| config := {| ClientSocket := dockerSock;
                                 others := others (config obj) |};
                    containerMap := containerMap obj;
                    clientType := "docker" |}
      else Returned obj
    end
  end.

Context {S : Type}.
(** [manager.Get] *)
Variable Get : string -> Manager O DockerInfo S.

Definition GetActiveContainers (c : Component O DockerInfo) (s : S)
  : outcome (gmap string DockerInfo) * S :=
  let obj := Get (clientType c) in
  let s1 := Run obj (config c) s in
  let '((containerMap, err), s2) := GetAllDockerInfo obj s1 in
  match err with
  | Some e => (Panicked "containerdSockObj fetchAll fail" [FieldErr e], s2)
  | None => (Returned containerMap, s2)
  end.
End Discovery.

(** A host for trying the discovery on: which sockets exist, and the
    probe that fails, if one does. *)
Definition host (docker containerd : bool) (broken : option string)
    (path : string) : bool * option error :=
  if bool_decide (broken = Some path) then (false, Some (Errorf "permission denied"))
  else if String.eqb path dockerSock then (docker, None)
  else if String.eqb path containerdSock then (containerd, None)
  else (false, None).

(** A client that lists one container named after the socket it was run
    on, under the key it was registered with. *)
Definition client (name : string) : Manager unit string string := {|
  Run := fun cfg _ => ClientSocket cfg;
  GetAllDockerInfo := fun s => (({[ name := s ]} : gmap string string, None), s);
|}.

End cvdocker.

(** * Properties *)

(** ** Go values *)

Example Itoa_7 : Itoa 7 = "7".
Proof. reflexivity. Qed.

Example Itoa_negative : Itoa (-12) = "-12".
Proof. reflexivity. Qed.

Example Itoa_0 : Itoa 0 = "0".
Proof. reflexivity. Qed.



Lemma ReqPermission_eqb_refl (a : ReqPermission) : ReqPermission_eqb a a = true.
Proof.
  unfold ReqPermission_eqb. rewrite Z.eqb_refl, !String.eqb_refl. simpl.
  induction (Acts a) as [|x l IH]; simpl; [reflexivity|].
  now rewrite String.eqb_refl.
Qed.


(** ** The canonicalizer *)

Section CanonicalizerFacts.
Context `{PS : PmsStatic}.

Lemma invalid_request_false (reqPms : ReqPermission) :
  invalid_request reqPms = false ->
  missing_field reqPms = false
  /\ bool_decide (ObjectType reqPms ∈ PermittedPrefixMap) = true.
Proof.
  unfold invalid_request. intros H.
  apply orb_false_elim in H as [Hm Hp]. split; [exact Hm|].
  now apply negb_false_iff in Hp.
Qed.

(** A request that fails validation: the zero tuple and an error. *)
Lemma canonicalize_invalid (reqPms : ReqPermission) :
  invalid_request reqPms = true ->
  fst (getCasbinItemsFromReqPermission reqPms)
    = {| ReqSub := ""; ReqObj := ""; ReqAct := ""; ReqDom := "" |}
  /\ exists e, snd (getCasbinItemsFromReqPermission reqPms) = Some e.
Proof.
  unfold invalid_request, getCasbinItemsFromReqPermission.
  fold (missing_field reqPms). intros H.
  destruct (missing_field reqPms); simpl in *.
  - split; eauto.
  - rewrite H. simpl. split; eauto.
Qed.

(** A request that passes validation: the tuple, whatever the string
    helpers report. *)
Lemma canonicalize_valid (reqPms : ReqPermission) :
  invalid_request reqPms = false ->
  getCasbinItemsFromReqPermission reqPms =
    ({| ReqSub := fst (Assemble2CasbinStr [PrefixUser; Itoa (UserId reqPms)]);
        ReqObj := fst (Assemble2CasbinStr
                         [ObjectType reqPms; ObjectIdx reqPms;
                          PrefixSubRsrc; SubResource reqPms]);
        ReqAct := if String.eqb (JointActs2RuleActStr (Acts reqPms)) ""
                  then "*" else JointActs2RuleActStr (Acts reqPms);
        ReqDom := match snd (Assemble2CasbinStr [DomainType reqPms; DomainId reqPms]) with
                  | Some _ => "*"
                  | None => fst (Assemble2CasbinStr [DomainType reqPms; DomainId reqPms])
                  end |}, None).
Proof.
  intros H. apply invalid_request_false in H as [Hm Hp].
  unfold getCasbinItemsFromReqPermission.
  fold (missing_field reqPms). rewrite Hm, Hp. simpl.
  destruct (Assemble2CasbinStr [PrefixUser; _]) as [reqSub e1].
  destruct (Assemble2CasbinStr [ObjectType reqPms; _; _; _]) as [reqObj e2].
  destruct (Assemble2CasbinStr [DomainType reqPms; _]) as [reqDom e3].
  reflexivity.
Qed.

(** C10. Canonicalization fails exactly on its two validation
    conditions (a zero or empty required field, an [ObjectType] outside
    the permitted set).  Otherwise it succeeds: Subject and Object are
    the strings the assembler returns, whatever error comes with them,
    and Domain is the wildcard when the assembler reports an error for
    it, the assembled string when it does not. *)
Theorem canonicalize_fails_only_on_validation (reqPms : ReqPermission) :
  let r := getCasbinItemsFromReqPermission reqPms in
  let sub := Assemble2CasbinStr [PrefixUser; Itoa (UserId reqPms)] in
  let obj := Assemble2CasbinStr
               [ObjectType reqPms; ObjectIdx reqPms; PrefixSubRsrc; SubResource reqPms] in
  let dom := Assemble2CasbinStr [DomainType reqPms; DomainId reqPms] in
  (is_Some (snd r) <-> invalid_request reqPms = true)
  /\ (snd r = None <-> invalid_request reqPms = false)
  /\ (snd r = None ->
      ReqSub (fst r) = fst sub
      /\ ReqObj (fst r) = fst obj
      /\ ReqDom (fst r) = match snd dom with Some _ => "*" | None => fst dom end).
Proof.
  simpl.
  destruct (invalid_request reqPms) eqn:Hinv.
  - destruct (canonicalize_invalid reqPms Hinv) as [_ [e He]].
    rewrite He. repeat split; try discriminate; eauto.
  - rewrite (canonicalize_valid reqPms Hinv). simpl.
    repeat split; try discriminate; try reflexivity.
    intros [e He]. discriminate.
Qed.

(** C7. With the string helpers as the specification describes them (a
    join on a separator; an empty item is an error), a request that
    passes validation gets Action "*" when [Acts] is empty and Domain
    "*" when [DomainType] or [DomainId] is empty. *)
Theorem canonicalize_wildcards (reqPms : ReqPermission)
    (actSep sep : string) (bad : error) :
  (forall acts, JointActs2RuleActStr acts = spec_JointActs2RuleActStr actSep acts) ->
  (forall strs, Assemble2CasbinStr strs = spec_Assemble2CasbinStr sep bad strs) ->
  invalid_request reqPms = false ->
  (Acts reqPms = [] ->
     ReqAct (fst (getCasbinItemsFromReqPermission reqPms)) = "*")
  /\ (DomainType reqPms = "" \/ DomainId reqPms = "" ->
     ReqDom (fst (getCasbinItemsFromReqPermission reqPms)) = "*").
Proof.
  intros HJ HA Hvalid. rewrite (canonicalize_valid reqPms Hvalid). simpl.
  split.
  - intros Hacts. rewrite Hacts, HJ. reflexivity.
  - intros Hdom. rewrite HA. unfold spec_Assemble2CasbinStr. simpl.
    destruct Hdom as [-> | ->]; simpl.
    + reflexivity.
    + destruct (DomainType reqPms); reflexivity.
Qed.
End CanonicalizerFacts.

(** ** Determinism of the canonicalizer *)

Section DeterminismFacts.
Context {PS : PmsStatic} {PH : PmsHelpers}.

Lemma Canonicalizes_error_iff (reqPms : ReqPermission)
    (r : casbinItemsFromReqPermission * option error) :
  Canonicalizes reqPms r -> (snd r = None <-> invalid_request reqPms = false).
Proof.
  intros [Hm | Hm Hp | reqSub reqObj reqAct reqDom e1 e2 err Hm Hp _ _ _ _];
    unfold invalid_request; rewrite Hm; simpl.
  - split; discriminate.
  - rewrite (bool_decide_eq_false_2 _ Hp). split; discriminate.
  - rewrite (bool_decide_eq_true_2 _ Hp). split; reflexivity.
Qed.

End DeterminismFacts.

Section GraphFacts.
Context {PS : PmsStatic}.


End GraphFacts.

(** A helper that answers one way or another shows in the result: the
    two assumptions of the determinism theorem are not for show. *)
Example Canonicalizes_fickle_helper :
  exists ra rb,
    Canonicalizes (PS := Scenario.static) (PH := Cases.fickle_helpers)
      Cases.read_write_T1 ra
    /\ Canonicalizes (PS := Scenario.static) (PH := Cases.fickle_helpers)
         Cases.read_write_T1 rb
    /\ ReqAct (fst ra) = "select,insert"
    /\ ReqAct (fst rb) = "select|insert".
Proof.
  assert (Hp : ObjectType Cases.read_write_T1
               ∈ @PermittedPrefixMap Scenario.static).
  { simpl. set_solver. }
  eexists. eexists. split; [|split].
  - apply (canon_built (PS := Scenario.static) (PH := Cases.fickle_helpers)
             Cases.read_write_T1 "user:7" "table:T1:sub:read" "select,insert" ""
             None None (Some (Errorf "empty item")));
      try reflexivity; try exact Hp. now left.
  - apply (canon_built (PS := Scenario.static) (PH := Cases.fickle_helpers)
             Cases.read_write_T1 "user:7" "table:T1:sub:read" "select|insert" ""
             None None (Some (Errorf "empty item")));
      try reflexivity; try exact Hp. now right.
  - split; reflexivity.
Qed.

(** ** The strategy registry *)

Section StrategyFacts.
Context `{PS : PmsStatic}.

Lemma strategies_lookup (objType : string) :
  strategies !! objType =
    if decide (PrefixTable = objType)
    then Some ({[ AppPodTerminal := Some podTerminalChecker ]} : gmap string UserPmsChecker)
    else None.
Proof.
  unfold strategies. rewrite lookup_singleton. reflexivity.
Qed.

(** C4. Strategy selection never returns the nil interface; the pair
    (table, pod-terminal) selects the pod-terminal checker; a pair whose
    [ObjectType] has no entry in [strategies], or has one that holds no
    entry for the [SubResource], selects the default checker. *)
Theorem newUserPmsCheckStrategy_select :
  (forall objType subResource,
      newUserPmsCheckStrategy objType subResource <> None)
  /\ newUserPmsCheckStrategy PrefixTable AppPodTerminal = Some podTerminalChecker
  /\ (forall objType subResource,
      strategies !! objType = None ->
      newUserPmsCheckStrategy objType subResource = Some defaultChecker)
  /\ (forall objType subResource (m : gmap string UserPmsChecker),
      strategies !! objType = Some m ->
      m !! subResource = None ->
      newUserPmsCheckStrategy objType subResource = Some defaultChecker)
  /\ (forall objType subResource,
      objType <> PrefixTable \/ subResource <> AppPodTerminal ->
      newUserPmsCheckStrategy objType subResource = Some defaultChecker).
Proof.
  repeat split.
  - intros objType subResource. unfold newUserPmsCheckStrategy.
    rewrite strategies_lookup. destruct (decide (PrefixTable = objType)); [|discriminate].
    rewrite lookup_singleton.
    destruct (decide (AppPodTerminal = subResource)); discriminate.
  - unfold newUserPmsCheckStrategy, strategies.
    now rewrite !lookup_singleton_eq.
  - intros objType subResource Hnone. unfold newUserPmsCheckStrategy.
    now rewrite Hnone.
  - intros objType subResource m Hm Hsub. unfold newUserPmsCheckStrategy.
    now rewrite Hm, Hsub.
  - intros objType subResource Hne. unfold newUserPmsCheckStrategy.
    rewrite strategies_lookup.
    destruct (decide (PrefixTable = objType)) as [Ho|Ho]; [|reflexivity].
    rewrite lookup_singleton.
    destruct (decide (AppPodTerminal = subResource)) as [Hs|Hs]; [|reflexivity].
    destruct Hne as [Hne|Hne]; congruence.
Qed.
End StrategyFacts.

(** ** The checkers *)

Section CheckerFacts.
Context {W : Type} {PS : PmsStatic} {PE : PmsEngine W} {PV : PermissionEnv W}.

Ltac run :=
  unfold Check, defaultChecker_Check, podTerminalChecker_Check,
    bind, perform, Logger, ret, value, after, calls in *.

Ltac skip_route c reqPms Hroute :=
  destruct c;
  [ assert (Hne : String.eqb (ObjectType reqPms) PrefixRoute = false)
      by (apply String.eqb_neq, Hroute; reflexivity);
    run; rewrite Hne
  | run ].

Lemma isRootUser_not_positive (uid : Z) (w : W) :
  uid <= 0 -> isRootUser uid w = (false, w, []).
Proof.
  intros H. unfold isRootUser. apply Z.leb_le in H. now rewrite H.
Qed.

Lemma isRootUser_calls (uid : Z) (w : W) :
  engine_calls (calls (isRootUser uid w)) = [].
Proof.
  unfold isRootUser. destruct (Z.leb uid 0); [reflexivity|].
  unfold perform, calls. now destruct (IsRootWithoutCheckingSysLock uid w).
Qed.

(** The default checker on a route request: two log lines, nothing
    else. *)
Lemma defaultChecker_route (reqPms : ReqPermission) (w : W) :
  ObjectType reqPms = PrefixRoute ->
  defaultChecker_Check reqPms w =
    (None, w,
     [entry_log reqPms; LoggerCall InfoLevel "==> route always pass currently." []]).
Proof.
  intros H. apply String.eqb_eq in H. run. now rewrite H.
Qed.

(** The gate refuses: its error is the result. *)
Lemma Check_gate_refuses (c : checker) (reqPms : ReqPermission) (w w1 : W) (e : error) :
  past_route c reqPms ->
  CheckDomLockIfActWrite reqPms w = (Some e, w1) ->
  Check c reqPms w = (Some e, w1, [entry_log reqPms; CheckDomLockCall reqPms]).
Proof.
  intros Hroute Hgate. skip_route c reqPms Hroute; now rewrite Hgate.
Qed.

(** The gate lets the request pass and the user is root. *)
Lemma Check_root (c : checker) (reqPms : ReqPermission) (w w1 : W) :
  past_route c reqPms ->
  CheckDomLockIfActWrite reqPms w = (None, w1) ->
  value (isRootUser (UserId reqPms) w1) = true ->
  Check c reqPms w =
    (None, after (isRootUser (UserId reqPms) w1),
     [entry_log reqPms; CheckDomLockCall reqPms]
       ++ calls (isRootUser (UserId reqPms) w1))%list.
Proof.
  intros Hroute Hgate Hroot.
  skip_route c reqPms Hroute; rewrite Hgate;
    destruct (isRootUser (UserId reqPms) w1) as [[root w2] t];
    simpl in *; subst root; now rewrite app_nil_r.
Qed.

(** The gate lets the request pass, the user is not root and the
    request fails validation. *)
Lemma Check_invalid (c : checker) (reqPms : ReqPermission) (w w1 : W)
    (items : casbinItemsFromReqPermission) (cause : error) :
  past_route c reqPms ->
  CheckDomLockIfActWrite reqPms w = (None, w1) ->
  value (isRootUser (UserId reqPms) w1) = false ->
  getCasbinItemsFromReqPermission reqPms = (items, Some cause) ->
  Check c reqPms w =
    (Some (ErrorfW "ReqPermission is invalid. " cause),
     after (isRootUser (UserId reqPms) w1),
     [entry_log reqPms; CheckDomLockCall reqPms]
       ++ calls (isRootUser (UserId reqPms) w1)
       ++ [LoggerCall ErrorLevel ("ReqPermission is invalid. " ++ Error cause) []])%list.
Proof.
  intros Hroute Hgate Hroot Hitems.
  skip_route c reqPms Hroute; rewrite Hgate;
    destruct (isRootUser (UserId reqPms) w1) as [[root w2] t];
    simpl in *; subst root; now rewrite Hitems.
Qed.

(** The gate lets the request pass, the user is not root, the request
    is valid: the engine is asked once and its boolean decides. *)
Lemma Check_enforced (c : checker) (reqPms : ReqPermission) (w w1 w3 : W)
    (items : casbinItemsFromReqPermission) (pmsPassed : bool) (err : option error) :
  past_route c reqPms ->
  CheckDomLockIfActWrite reqPms w = (None, w1) ->
  value (isRootUser (UserId reqPms) w1) = false ->
  getCasbinItemsFromReqPermission reqPms = (items, None) ->
  enforcement c items (after (isRootUser (UserId reqPms) w1)) = ((pmsPassed, err), w3) ->
  Check c reqPms w =
    (if pmsPassed then None else Some (Errorf MsgNoPermission),
     w3,
     [entry_log reqPms; CheckDomLockCall reqPms]
       ++ calls (isRootUser (UserId reqPms) w1)
       ++ [enforcement_call c items]
       ++ match err with
          | Some e => [LoggerCall WarnLevel "reqPerm not pass" [zapError e]]
          | None => []
          end)%list.
Proof.
  intros Hroute Hgate Hroot Hitems Henf.
  skip_route c reqPms Hroute; rewrite Hgate;
    destruct (isRootUser (UserId reqPms) w1) as [[root w2] t];
    simpl in *; subst root; rewrite Hitems; simpl; rewrite Henf;
    destruct err, pmsPassed; simpl; now rewrite ?app_nil_r.
Qed.

Lemma past_route_podTerminal (reqPms : ReqPermission) :
  past_route podTerminalChecker reqPms.
Proof. intros H. discriminate H. Qed.

Lemma past_route_default (reqPms : ReqPermission) :
  ObjectType reqPms <> PrefixRoute -> past_route defaultChecker reqPms.
Proof. intros H _. exact H. Qed.

(** C1, as the code has it.  A request with [UserId = 0] that reaches
    validation (any checker but the default one on a route request, and
    the domain-lock gate lets it pass) is answered with a validation
    error, whatever its other fields hold, and the policy engine is not
    asked. *)
Theorem Check_UserId_zero_invalid (c : checker) (reqPms : ReqPermission) (w w1 : W) :
  UserId reqPms = 0 ->
  past_route c reqPms ->
  CheckDomLockIfActWrite reqPms w = (None, w1) ->
  returns_ValidationError (Check c reqPms w) = true
  /\ engine_calls (calls (Check c reqPms w)) = [].
Proof.
  intros Huid Hroute Hgate.
  assert (Hroot : isRootUser (UserId reqPms) w1 = (false, w1, [])).
  { apply isRootUser_not_positive. lia. }
  assert (Hinv : invalid_request reqPms = true).
  { unfold invalid_request, missing_field. now rewrite Huid. }
  destruct (canonicalize_invalid reqPms Hinv) as [_ [cause Hcause]].
  destruct (getCasbinItemsFromReqPermission reqPms) as [items oe] eqn:Hitems.
  simpl in Hcause. subst oe.
  rewrite (Check_invalid c reqPms w w1 items cause Hroute Hgate); try assumption.
  - rewrite Hroot. split; reflexivity.
  - now rewrite Hroot.
Qed.

(** C2, as the code has it.  When the domain-lock gate lets the request
    pass and the root-user lookup reports the [UserId] as root, [Check]
    returns nil and the policy engine is not asked, so its verdict on
    the tuple does not matter. *)
Theorem Check_root_permitted (c : checker) (reqPms : ReqPermission) (w w1 : W) :
  CheckDomLockIfActWrite reqPms w = (None, w1) ->
  value (isRootUser (UserId reqPms) w1) = true ->
  value (Check c reqPms w) = None
  /\ engine_calls (calls (Check c reqPms w)) = [].
Proof.
  intros Hgate Hroot.
  assert (Hpast : past_route c reqPms ->
            value (Check c reqPms w) = None
            /\ engine_calls (calls (Check c reqPms w)) = []).
  { intros Hroute. rewrite (Check_root c reqPms w w1 Hroute Hgate Hroot).
    split; [reflexivity|]. unfold calls at 1. simpl. apply isRootUser_calls. }
  destruct c.
  - destruct (String.eqb (ObjectType reqPms) PrefixRoute) eqn:Heq.
    + apply String.eqb_eq in Heq. simpl.
      rewrite (defaultChecker_route reqPms w Heq). split; reflexivity.
    + apply String.eqb_neq in Heq. apply Hpast. now apply past_route_default.
  - apply Hpast, past_route_podTerminal.
Qed.

(** C3, as the code has it.  When the domain-lock gate refuses the
    request with an error (it does so for a write to a locked domain),
    every checker but the default one on a route request returns that
    error, and the policy engine is not asked. *)
Theorem Check_domain_locked (c : checker) (reqPms : ReqPermission) (w w1 : W)
    (DomainLockedError : error) :
  past_route c reqPms ->
  CheckDomLockIfActWrite reqPms w = (Some DomainLockedError, w1) ->
  value (Check c reqPms w) = Some DomainLockedError
  /\ engine_calls (calls (Check c reqPms w)) = [].
Proof.
  intros Hroute Hgate.
  rewrite (Check_gate_refuses c reqPms w w1 DomainLockedError Hroute Hgate).
  split; reflexivity.
Qed.

(** C6. Once a check reaches the policy engine, the boolean the engine
    returns decides alone: [true] gives nil, [false] gives the
    no-permission error, with or without an engine error, which is only
    logged as a warning. *)
Theorem Check_verdict_is_engine_boolean (c : checker) (reqPms : ReqPermission)
    (w w1 w3 : W) (items : casbinItemsFromReqPermission)
    (pmsPassed : bool) (err : option error) :
  past_route c reqPms ->
  CheckDomLockIfActWrite reqPms w = (None, w1) ->
  value (isRootUser (UserId reqPms) w1) = false ->
  getCasbinItemsFromReqPermission reqPms = (items, None) ->
  enforcement c items (after (isRootUser (UserId reqPms) w1)) = ((pmsPassed, err), w3) ->
  value (Check c reqPms w)
    = (if pmsPassed then None else Some (Errorf MsgNoPermission))
  /\ (forall e, err = Some e ->
        In (LoggerCall WarnLevel "reqPerm not pass" [zapError e])
           (calls (Check c reqPms w))).
Proof.
  intros Hroute Hgate Hroot Hitems Henf.
  rewrite (Check_enforced c reqPms w w1 w3 items pmsPassed err
             Hroute Hgate Hroot Hitems Henf).
  split; [reflexivity|].
  intros e ->. unfold calls. simpl.
  right. right. apply in_or_app. right. simpl. auto.
Qed.

(** C8. On a request whose [ObjectType] is the route category the
    default checker returns nil at once: it leaves the state of the
    collaborators as it was and calls none of them (not the gate, not
    the root lookup, not the engine), it only writes two log lines. *)
Theorem defaultChecker_route_permits (reqPms : ReqPermission) (w : W) :
  ObjectType reqPms = PrefixRoute ->
  value (Check defaultChecker reqPms w) = None
  /\ after (Check defaultChecker reqPms w) = w
  /\ calls (Check defaultChecker reqPms w)
     = [entry_log reqPms; LoggerCall InfoLevel "==> route always pass currently." []].
Proof.
  intros Hroute. simpl. rewrite (defaultChecker_route reqPms w Hroute).
  repeat split; reflexivity.
Qed.

(** C9. On a request whose [ObjectType] is not the route category, the
    two checkers return the same result, provided the any-of adapter on
    one tuple and the single-tuple [Enforce] give the same boolean. *)
Theorem Check_default_agrees_podTerminal (reqPms : ReqPermission) (w : W) :
  ObjectType reqPms <> PrefixRoute ->
  (forall sub obj act dom w',
      fst (fst (EnforceOneInMany [Convert2InterfaceSlice [sub; obj; act; dom]] w'))
      = fst (fst (Enforce sub obj act dom w'))) ->
  value (Check defaultChecker reqPms w) = value (Check podTerminalChecker reqPms w).
Proof.
  intros Hroute Hagree.
  pose proof (past_route_default reqPms Hroute) as Hd.
  pose proof (past_route_podTerminal reqPms) as Hp.
  destruct (CheckDomLockIfActWrite reqPms w) as [[e|] w1] eqn:Hgate.
  - now rewrite (Check_gate_refuses _ reqPms w w1 e Hd Hgate),
      (Check_gate_refuses _ reqPms w w1 e Hp Hgate).
  - destruct (value (isRootUser (UserId reqPms) w1)) eqn:Hroot.
    + now rewrite (Check_root _ reqPms w w1 Hd Hgate Hroot),
        (Check_root _ reqPms w w1 Hp Hgate Hroot).
    + destruct (getCasbinItemsFromReqPermission reqPms) as [items [cause|]] eqn:Hitems.
      * now rewrite (Check_invalid _ reqPms w w1 items cause Hd Hgate Hroot Hitems),
          (Check_invalid _ reqPms w w1 items cause Hp Hgate Hroot Hitems).
      * set (w2 := after (isRootUser (UserId reqPms) w1)).
        destruct (enforcement defaultChecker items w2) as [[b1 e1] w3] eqn:H1.
        destruct (enforcement podTerminalChecker items w2) as [[b2 e2] w4] eqn:H2.
        rewrite (Check_enforced _ reqPms w w1 w3 items b1 e1 Hd Hgate Hroot Hitems H1),
          (Check_enforced _ reqPms w w1 w4 items b2 e2 Hp Hgate Hroot Hitems H2).
        unfold value. simpl.
        specialize (Hagree (ReqSub items) (ReqObj items) (ReqAct items) (ReqDom items) w2).
        simpl in H1, H2. rewrite H1, H2 in Hagree. simpl in Hagree.
        now subst b2.
Qed.
End CheckerFacts.

(** ** The properties on the concrete configuration *)

Lemma Check_UserId_zero_invalid_witness :
  UserId Scenario.table_anonymous = 0
  /\ returns_ValidationError
       (Scenario.check defaultChecker Scenario.table_anonymous Scenario.empty) = true
  /\ engine_calls
       (calls (Scenario.check defaultChecker Scenario.table_anonymous Scenario.empty)) = [].
Proof.
  split; [reflexivity|].
  apply (@Check_UserId_zero_invalid _ Scenario.static Scenario.engine Scenario.env
           defaultChecker Scenario.table_anonymous Scenario.empty Scenario.empty).
  - reflexivity.
  - intros _. discriminate.
  - reflexivity.
Defined.

(** C1 fails as stated.  With [UserId <= 0], the default checker permits
    a route request; a complete request with a negative [UserId] passes
    validation and is decided by the policy engine; and a write to a
    locked domain is answered by the gate's error, before validation. *)
Lemma Check_UserId_not_positive_counterexample :
  (UserId Scenario.route_anonymous <= 0
   /\ value (Scenario.check defaultChecker Scenario.route_anonymous Scenario.empty) = None)
  /\ (UserId Scenario.negative_user <= 0
      /\ value (Scenario.check defaultChecker Scenario.negative_user
                  Scenario.allow_negative_user) = None
      /\ value (Scenario.check podTerminalChecker Scenario.negative_user
                  Scenario.allow_negative_user) = None)
  /\ (UserId Scenario.anonymous_write_prod <= 0
      /\ value (Scenario.check defaultChecker Scenario.anonymous_write_prod
                  Scenario.prod_locked) = Some Scenario.DomainLockedError
      /\ is_ValidationError Scenario.DomainLockedError = false).
Proof.
  repeat split; try reflexivity; vm_compute; discriminate.
Qed.

Lemma Check_root_permitted_witness :
  fst (Scenario.enforce "user:1" "table:T1:sub:pod-terminal" "write" "env:prod"
         Scenario.root_only) = (false, None)
  /\ value (Scenario.check podTerminalChecker Scenario.write_prod Scenario.root_only) = None
  /\ engine_calls
       (calls (Scenario.check podTerminalChecker Scenario.write_prod Scenario.root_only)) = [].
Proof.
  split; [reflexivity|].
  apply (@Check_root_permitted _ Scenario.static Scenario.engine Scenario.env
           podTerminalChecker Scenario.write_prod Scenario.root_only Scenario.root_only);
    reflexivity.
Defined.

(** C2 fails as stated.  User 1 is root, yet the write to the locked
    domain is refused by the gate, which both checkers ask before the
    root lookup. *)
Lemma Check_root_locked_counterexample :
  value (@isRootUser _ Scenario.static Scenario.engine
           (UserId Scenario.write_prod) Scenario.prod_locked) = true
  /\ value (Scenario.check podTerminalChecker Scenario.write_prod Scenario.prod_locked)
     = Some Scenario.DomainLockedError
  /\ value (Scenario.check defaultChecker Scenario.write_prod Scenario.prod_locked)
     = Some Scenario.DomainLockedError.
Proof.
  repeat split; reflexivity.
Qed.

Lemma Check_domain_locked_witness :
  value (Scenario.check podTerminalChecker Scenario.write_prod Scenario.prod_locked)
    = Some Scenario.DomainLockedError
  /\ engine_calls
       (calls (Scenario.check podTerminalChecker Scenario.write_prod Scenario.prod_locked)) = [].
Proof.
  apply (@Check_domain_locked _ Scenario.static Scenario.engine Scenario.env
           podTerminalChecker Scenario.write_prod Scenario.prod_locked Scenario.prod_locked).
  - intros H. discriminate H.
  - reflexivity.
Defined.

(** C3 fails as stated.  The request writes to env/prod, which is
    locked, and the gate refuses it when asked; the default checker
    permits it all the same, because it is a route request. *)
Lemma Check_route_locked_counterexample :
  fst (@CheckDomLockIfActWrite _ Scenario.env Scenario.route_write_prod Scenario.prod_locked)
    = Some Scenario.DomainLockedError
  /\ value (Scenario.check defaultChecker Scenario.route_write_prod Scenario.prod_locked)
     = None.
Proof.
  split; reflexivity.
Qed.

Lemma newUserPmsCheckStrategy_select_witness :
  @newUserPmsCheckStrategy Scenario.static "table" "pod-terminal" = Some podTerminalChecker
  /\ @newUserPmsCheckStrategy Scenario.static "table" "unknown" = Some defaultChecker
  /\ @newUserPmsCheckStrategy Scenario.static "unknown-type" "x" = Some defaultChecker.
Proof.
  destruct (@newUserPmsCheckStrategy_select Scenario.static)
    as (_ & Hpod & Htype & Hsub & _).
  split; [exact Hpod|]. split.
  - apply (Hsub "table" "unknown" {[ "pod-terminal" := Some podTerminalChecker ]});
      reflexivity.
  - apply (Htype "unknown-type" "x"). reflexivity.
Defined.


Lemma Check_verdict_is_engine_boolean_witness :
  snd (fst (Scenario.enforceOneInMany
              [["user:7"; "table:T1:sub:read"; "select"; "*"]]
              Scenario.faulty_allow_read_T1))
    = Some (Errorf "rule store unavailable")
  /\ value (Scenario.check defaultChecker Scenario.read_T1 Scenario.faulty_allow_read_T1)
     = None
  /\ In (LoggerCall WarnLevel "reqPerm not pass" [zapError (Errorf "rule store unavailable")])
        (calls (Scenario.check defaultChecker Scenario.read_T1
                  Scenario.faulty_allow_read_T1)).
Proof.
  split; [reflexivity|].
  destruct (@Check_verdict_is_engine_boolean _ Scenario.static Scenario.engine Scenario.env
              defaultChecker Scenario.read_T1
              Scenario.faulty_allow_read_T1 Scenario.faulty_allow_read_T1
              Scenario.faulty_allow_read_T1
              {| ReqSub := "user:7"; ReqObj := "table:T1:sub:read";
                 ReqAct := "select"; ReqDom := "*" |}
              true (Some (Errorf "rule store unavailable")))
    as [Hvalue Hlog].
  - intros _. discriminate.
  - reflexivity.
  - reflexivity.
  - reflexivity.
  - reflexivity.
  - split; [exact Hvalue|]. apply Hlog. reflexivity.
Defined.

Lemma canonicalize_wildcards_witness :
  Acts Scenario.any_act_T1 = []
  /\ DomainType Scenario.any_act_T1 = ""
  /\ ReqAct (fst (Scenario.canonicalize Scenario.any_act_T1)) = "*"
  /\ ReqDom (fst (Scenario.canonicalize Scenario.any_act_T1)) = "*".
Proof.
  split; [reflexivity|]. split; [reflexivity|].
  destruct (@canonicalize_wildcards Scenario.static Scenario.any_act_T1
              "," ":" (Errorf "empty item")) as [Hact Hdom].
  - reflexivity.
  - reflexivity.
  - reflexivity.
  - split; [apply Hact; reflexivity | apply Hdom; left; reflexivity].
Defined.

Lemma defaultChecker_route_permits_witness :
  ObjectType Scenario.route_write_prod = "route"
  /\ value (Scenario.check defaultChecker Scenario.route_write_prod Scenario.prod_locked)
     = None
  /\ after (Scenario.check defaultChecker Scenario.route_write_prod Scenario.prod_locked)
     = Scenario.prod_locked
  /\ calls (Scenario.check defaultChecker Scenario.route_write_prod Scenario.prod_locked)
     = [entry_log Scenario.route_write_prod;
        LoggerCall InfoLevel "==> route always pass currently." []].
Proof.
  split; [reflexivity|].
  apply (@defaultChecker_route_permits _ Scenario.static Scenario.engine Scenario.env
           Scenario.route_write_prod Scenario.prod_locked).
  reflexivity.
Defined.

Lemma Scenario_adapters_agree (sub obj act dom : string) (w : Scenario.World) :
  fst (fst (Scenario.enforceOneInMany [[sub; obj; act; dom]] w))
  = fst (fst (Scenario.enforce sub obj act dom w)).
Proof.
  unfold Scenario.enforceOneInMany, Scenario.enforce. simpl. apply orb_false_r.
Qed.

Lemma Check_default_agrees_podTerminal_witness :
  value (Scenario.check defaultChecker Scenario.read_T1 Scenario.allow_read_T1)
  = value (Scenario.check podTerminalChecker Scenario.read_T1 Scenario.allow_read_T1).
Proof.
  apply (@Check_default_agrees_podTerminal _ Scenario.static Scenario.engine Scenario.env
           Scenario.read_T1 Scenario.allow_read_T1).
  - discriminate.
  - exact Scenario_adapters_agree.
Defined.

Lemma canonicalize_fails_only_on_validation_witness :
  @getCasbinItemsFromReqPermission Scenario.failing_static Scenario.read_T1
  = ({| ReqSub := "?"; ReqObj := "?"; ReqAct := "select"; ReqDom := "*" |}, None).
Proof.
  destruct (@canonicalize_fails_only_on_validation Scenario.failing_static Scenario.read_T1)
    as (_ & Hok & Hfields).
  destruct (@getCasbinItemsFromReqPermission Scenario.failing_static Scenario.read_T1)
    as [items oe] eqn:Hitems.
  simpl in Hok, Hfields.
  assert (Hnone : oe = None) by (apply Hok; reflexivity).
  destruct (Hfields Hnone) as (Hsub & Hobj & Hdom).
  subst oe. destruct items as [s o a d]. simpl in *. subst s o d.
  f_equal. f_equal.
  vm_compute in Hitems. congruence.
Defined.

(** ** The scenarios of the specification *)

Example scenario_generic_allow :
  value (Scenario.check defaultChecker Scenario.read_T1 Scenario.allow_read_T1) = None.
Proof. reflexivity. Qed.

Example scenario_generic_deny :
  value (Scenario.check defaultChecker Scenario.read_T1 Scenario.empty)
  = Some (Errorf "no permission").
Proof. reflexivity. Qed.

Example scenario_canonical_tuple :
  Scenario.canonicalize Scenario.read_T1
  = ({| ReqSub := "user:7"; ReqObj := "table:T1:sub:read";
        ReqAct := "select"; ReqDom := "*" |}, None).
Proof. reflexivity. Qed.

(** * Further properties of the code *)

(** ** The exits of a check *)

Section ExitFacts.
Context {W : Type} {PS : PmsStatic} {PE : PmsEngine W} {PV : PermissionEnv W}.

Lemma route_bypass_false (c : checker) (reqPms : ReqPermission) :
  route_bypass c reqPms = false -> past_route c reqPms.
Proof.
  intros Hr Hc. subst c. simpl in Hr. now apply String.eqb_neq.
Qed.

(** Every run of [Check] is one of the five of [CheckRun]. *)
Lemma Check_runs (c : checker) (reqPms : ReqPermission) (w : W) :
  CheckRun c reqPms w (Check c reqPms w).
Proof.
  destruct (route_bypass c reqPms) eqn:Hr.
  - destruct c; [|discriminate Hr].
    pose proof Hr as Heq. simpl in Heq. apply String.eqb_eq in Heq.
    simpl. rewrite (defaultChecker_route reqPms w Heq). now apply run_route.
  - pose proof (route_bypass_false c reqPms Hr) as Hp.
    destruct (CheckDomLockIfActWrite reqPms w) as [[e|] w1] eqn:Hgate.
    + rewrite (Check_gate_refuses c reqPms w w1 e Hp Hgate).
      now apply run_refused.
    + destruct (value (isRootUser (UserId reqPms) w1)) eqn:Hroot.
      * rewrite (Check_root c reqPms w w1 Hp Hgate Hroot). now apply run_root.
      * destruct (getCasbinItemsFromReqPermission reqPms) as [items [cause|]] eqn:Hitems.
        -- rewrite (Check_invalid c reqPms w w1 items cause Hp Hgate Hroot Hitems).
           now apply (run_invalid c reqPms w w1 items cause).
        -- destruct (enforcement c items (after (isRootUser (UserId reqPms) w1)))
             as [[pmsPassed err] w3] eqn:Henf.
           rewrite (Check_enforced c reqPms w w1 w3 items pmsPassed err
                      Hp Hgate Hroot Hitems Henf).
           now apply (run_enforced c reqPms w w1 w3 items pmsPassed err).
Qed.

Lemma isRootUser_gate_calls (uid : Z) (w : W) :
  gate_calls (calls (isRootUser uid w)) = [].
Proof.
  unfold isRootUser. destruct (Z.leb uid 0); [reflexivity|].
  unfold perform, calls. now destruct (IsRootWithoutCheckingSysLock uid w).
Qed.

Lemma isRootUser_root_calls (uid : Z) (w : W) :
  (uid <= 0 /\ calls (isRootUser uid w) = [])
  \/ (0 < uid /\ calls (isRootUser uid w) = [IsRootCall uid]).
Proof.
  unfold isRootUser. destruct (Z.leb uid 0) eqn:Hle.
  - left. apply Z.leb_le in Hle. now split.
  - right. apply Z.leb_gt in Hle. split; [exact Hle|].
    unfold perform, calls. now destruct (IsRootWithoutCheckingSysLock uid w).
Qed.

Lemma engine_calls_app (t1 t2 : list Call) :
  engine_calls (t1 ++ t2) = (engine_calls t1 ++ engine_calls t2)%list.
Proof. apply List.filter_app. Qed.

Lemma engine_calls_engine_log (err : option error) : engine_calls (engine_log err) = [].
Proof. now destruct err. Qed.

Lemma engine_calls_enforcement_call (c : checker) (items : casbinItemsFromReqPermission) :
  engine_calls [enforcement_call c items] = [enforcement_call c items].
Proof. now destruct c. Qed.

Lemma engine_calls_head (reqPms : ReqPermission) :
  engine_calls [entry_log reqPms; CheckDomLockCall reqPms] = [].
Proof. reflexivity. Qed.

Lemma calls_triple {A} (a : A) (w : W) (t : list Call) : calls (a, w, t) = t.
Proof. reflexivity. Qed.

Lemma value_triple {A} (a : A) (w : W) (t : list Call) : value (a, w, t) = a.
Proof. reflexivity. Qed.

Ltac engine_trace :=
  rewrite ?calls_triple, ?engine_calls_app, ?engine_calls_head, ?isRootUser_calls,
    ?engine_calls_engine_log, ?engine_calls_enforcement_call;
  simpl.

(** X1. The policy engine is asked at most once in a check, and then
    for the tuple the canonicalizer built from the request. *)
Theorem Check_engine_at_most_once (c : checker) (reqPms : ReqPermission) (w : W) :
  engine_calls (calls (Check c reqPms w)) = []
  \/ exists items,
      getCasbinItemsFromReqPermission reqPms = (items, None)
      /\ engine_calls (calls (Check c reqPms w)) = [enforcement_call c items].
Proof.
  destruct (Check_runs c reqPms w) as
    [Hr | e w1 Hr Hgate | w1 Hr Hgate Hroot | w1 items cause Hr Hgate Hroot Hitems
     | w1 w3 items pmsPassed err Hr Hgate Hroot Hitems Henf].
  - now left.
  - now left.
  - left. now engine_trace.
  - left. now engine_trace.
  - right. exists items. split; [exact Hitems|]. now engine_trace.
Qed.

(** X2. [Check] permits for one of three reasons only: the route branch of
    the default checker; or, the gate having let the request pass, a root
    user; or a valid request for which the engine returned [true]. *)
Theorem Check_permit_has_reason (c : checker) (reqPms : ReqPermission) (w : W) :
  value (Check c reqPms w) = None ->
  route_bypass c reqPms = true
  \/ exists w1,
      CheckDomLockIfActWrite reqPms w = (None, w1)
      /\ (value (isRootUser (UserId reqPms) w1) = true
          \/ exists items,
              getCasbinItemsFromReqPermission reqPms = (items, None)
              /\ fst (fst (enforcement c items
                             (after (isRootUser (UserId reqPms) w1)))) = true).
Proof.
  destruct (Check_runs c reqPms w) as
    [Hr | e w1 Hr Hgate | w1 Hr Hgate Hroot | w1 items cause Hr Hgate Hroot Hitems
     | w1 w3 items pmsPassed err Hr Hgate Hroot Hitems Henf];
    rewrite value_triple; intros Hv.
  - now left.
  - discriminate Hv.
  - right. exists w1. split; [exact Hgate|]. now left.
  - discriminate Hv.
  - right. exists w1. split; [exact Hgate|]. right. exists items.
    split; [exact Hitems|]. rewrite Henf. simpl.
    destruct pmsPassed; [reflexivity | discriminate Hv].
Qed.

(** X3. An error returned by [Check] is the error of the domain-lock
    gate, or the canonicalizer's error wrapped behind "ReqPermission is
    invalid. " (and logged), or the no-permission error after one call to
    the engine.  The engine's own error is never what [Check] builds its
    result from. *)
Theorem Check_error_taxonomy (c : checker) (reqPms : ReqPermission) (w : W) (e : error) :
  value (Check c reqPms w) = Some e ->
  (exists w1, CheckDomLockIfActWrite reqPms w = (Some e, w1))
  \/ (exists items cause,
        getCasbinItemsFromReqPermission reqPms = (items, Some cause)
        /\ e = ErrorfW "ReqPermission is invalid. " cause
        /\ Unwrap e = Some cause
        /\ In (LoggerCall ErrorLevel (Error e) []) (calls (Check c reqPms w)))
  \/ (e = Errorf MsgNoPermission
      /\ exists items,
          getCasbinItemsFromReqPermission reqPms = (items, None)
          /\ engine_calls (calls (Check c reqPms w)) = [enforcement_call c items]).
Proof.
  destruct (Check_runs c reqPms w) as
    [Hr | e' w1 Hr Hgate | w1 Hr Hgate Hroot | w1 items cause Hr Hgate Hroot Hitems
     | w1 w3 items pmsPassed err Hr Hgate Hroot Hitems Henf];
    rewrite value_triple; intros Hv.
  - discriminate Hv.
  - left. exists w1. now injection Hv as ->.
  - discriminate Hv.
  - right. left. exists items, cause. injection Hv as <-.
    repeat split; [exact Hitems|]. rewrite calls_triple.
    apply in_or_app. right. apply in_or_app. right. now left.
  - right. right. destruct pmsPassed; [discriminate Hv|]. injection Hv as <-.
    split; [reflexivity|]. exists items. split; [exact Hitems|]. now engine_trace.
Qed.

(** X4. A request that fails validation never reaches the policy
    engine; and unless the check ended earlier (route branch, gate error,
    root user) its result is the canonicalizer's error, wrapped.  This
    holds for each of the four required fields and for an [ObjectType]
    outside the permitted set. *)
Theorem Check_invalid_never_enforced (c : checker) (reqPms : ReqPermission) (w : W) :
  invalid_request reqPms = true ->
  engine_calls (calls (Check c reqPms w)) = []
  /\ forall w1,
      route_bypass c reqPms = false ->
      CheckDomLockIfActWrite reqPms w = (None, w1) ->
      value (isRootUser (UserId reqPms) w1) = false ->
      exists cause,
        snd (getCasbinItemsFromReqPermission reqPms) = Some cause
        /\ value (Check c reqPms w) = Some (ErrorfW "ReqPermission is invalid. " cause).
Proof.
  intros Hinv. destruct (canonicalize_invalid reqPms Hinv) as [_ [cause0 Hcause]].
  destruct (Check_runs c reqPms w) as
    [Hr | e w1 Hr Hgate | w1 Hr Hgate Hroot | w1 items cause Hr Hgate Hroot Hitems
     | w1 w3 items pmsPassed err Hr Hgate Hroot Hitems Henf].
  - split; [reflexivity|]. intros w1' Hr'. congruence.
  - split; [reflexivity|]. intros w1' _ Hgate'. congruence.
  - split; [now engine_trace|]. intros w1' _ Hgate' Hroot'.
    assert (w1' = w1) by congruence. subst w1'. congruence.
  - split; [now engine_trace|]. intros w1' _ Hgate' Hroot'.
    exists cause. rewrite Hitems. split; reflexivity.
  - rewrite Hitems in Hcause. discriminate Hcause.
Qed.

Lemma gate_calls_app (t1 t2 : list Call) :
  gate_calls (t1 ++ t2) = (gate_calls t1 ++ gate_calls t2)%list.
Proof. apply List.filter_app. Qed.

Lemma root_calls_app (t1 t2 : list Call) :
  root_calls (t1 ++ t2) = (root_calls t1 ++ root_calls t2)%list.
Proof. apply List.filter_app. Qed.

Lemma gate_calls_tail (c : checker) (items : casbinItemsFromReqPermission)
    (err : option error) :
  gate_calls ([enforcement_call c items] ++ engine_log err) = [].
Proof. now destruct c, err. Qed.

Lemma gate_calls_head (reqPms : ReqPermission) :
  gate_calls [entry_log reqPms; CheckDomLockCall reqPms] = [CheckDomLockCall reqPms].
Proof. reflexivity. Qed.

(** X5. Unless the check leaves by the route branch, the domain-lock gate
    is asked exactly once, with the request as [Check] received it: also
    for a root user and for a request that will fail validation.  The
    pod-terminal checker has no route branch, so it always asks. *)
Theorem Check_gate_asked_once (c : checker) (reqPms : ReqPermission) (w : W) :
  gate_calls (calls (Check c reqPms w))
  = if route_bypass c reqPms then [] else [CheckDomLockCall reqPms].
Proof.
  destruct (Check_runs c reqPms w) as
    [Hr | e w1 Hr Hgate | w1 Hr Hgate Hroot | w1 items cause Hr Hgate Hroot Hitems
     | w1 w3 items pmsPassed err Hr Hgate Hroot Hitems Henf];
    rewrite Hr, calls_triple; try reflexivity;
    rewrite !gate_calls_app, gate_calls_head, isRootUser_gate_calls.
  - reflexivity.
  - reflexivity.
  - now rewrite <- gate_calls_app, gate_calls_tail.
Qed.

(** X6. The root-user lookup is made at most once in a check, for the
    [UserId] of the request, and never for a [UserId] that is zero or
    negative. *)
Theorem Check_root_lookup_at_most_once (c : checker) (reqPms : ReqPermission) (w : W) :
  root_calls (calls (Check c reqPms w)) = []
  \/ (0 < UserId reqPms
      /\ root_calls (calls (Check c reqPms w)) = [IsRootCall (UserId reqPms)]).
Proof.
  destruct (Check_runs c reqPms w) as
    [Hr | e w1 Hr Hgate | w1 Hr Hgate Hroot | w1 items cause Hr Hgate Hroot Hitems
     | w1 w3 items pmsPassed err Hr Hgate Hroot Hitems Henf];
    rewrite calls_triple; try (now left);
    destruct (isRootUser_root_calls (UserId reqPms) w1) as [[Hle Hc] | [Hlt Hc]];
    rewrite Hc, ?root_calls_app; simpl; auto;
    destruct c, err; simpl; auto.
Qed.

(** X7. The registry and the default checker together: when the route
    category is not the table category, a route request is given the
    default checker, whatever its [SubResource], and that checker permits
    it without asking any collaborator. *)
Theorem route_request_selects_bypass (reqPms : ReqPermission) (w : W) :
  PrefixRoute <> PrefixTable ->
  ObjectType reqPms = PrefixRoute ->
  exists c,
    newUserPmsCheckStrategy (ObjectType reqPms) (SubResource reqPms) = Some c
    /\ Check c reqPms w = (None, w, [entry_log reqPms; route_log]).
Proof.
  intros Hne Hroute. exists defaultChecker. split.
  - unfold newUserPmsCheckStrategy. rewrite strategies_lookup, Hroute.
    destruct (decide (PrefixTable = PrefixRoute)) as [Heq|_]; [|reflexivity].
    now contradiction Hne.
  - simpl. now apply defaultChecker_route.
Qed.

(** X8. The Action the canonicalizer builds is never the empty string,
    whatever the helper that joins the actions returns; a failed
    canonicalization returns four empty strings. *)
Theorem canonicalize_action_never_empty (reqPms : ReqPermission) :
  (snd (getCasbinItemsFromReqPermission reqPms) = None ->
   ReqAct (fst (getCasbinItemsFromReqPermission reqPms)) <> "")
  /\ (is_Some (snd (getCasbinItemsFromReqPermission reqPms)) ->
      fst (getCasbinItemsFromReqPermission reqPms)
      = {| ReqSub := ""; ReqObj := ""; ReqAct := ""; ReqDom := "" |}).
Proof.
  destruct (invalid_request reqPms) eqn:Hinv.
  - destruct (canonicalize_invalid reqPms Hinv) as [Hzero [cause Hcause]].
    split; [rewrite Hcause; discriminate | intros _; exact Hzero].
  - rewrite (canonicalize_valid reqPms Hinv). simpl. split.
    + intros _.
      destruct (String.eqb (JointActs2RuleActStr (Acts reqPms)) "") eqn:Heq.
      * discriminate.
      * now apply String.eqb_neq.
    + intros [e He]. discriminate He.
Qed.
End ExitFacts.

(** ** Container runtime discovery *)

Section DiscoveryFacts.
Context {O DockerInfo : Type}.
Variable DefaultConfig : cvdocker.Config O.
Variable PathExist : string -> bool * option error.

Local Abbreviation NewContainer :=
  (@cvdocker.NewContainer O DockerInfo DefaultConfig PathExist).

(** X9. [NewContainer] returns a component exactly when both probes
    come back without an error and at least one of the two sockets
    exists; in every other case it panics. *)
Theorem NewContainer_returns_iff :
  (exists comp, NewContainer = cvdocker.Returned comp)
  <-> (snd (PathExist cvdocker.dockerSock) = None
       /\ snd (PathExist cvdocker.containerdSock) = None
       /\ fst (PathExist cvdocker.dockerSock)
          || fst (PathExist cvdocker.containerdSock) = true).
Proof.
  unfold cvdocker.NewContainer.
  destruct (PathExist cvdocker.dockerSock) as [d [ed|]];
    destruct (PathExist cvdocker.containerdSock) as [k [ek|]];
    simpl; (split; [intros [comp Hc] | intros (H1 & H2 & H3)]);
    try discriminate.
  - destruct d, k; simpl in *; try discriminate; auto.
  - destruct d, k; simpl in *; try discriminate; eauto.
Qed.

(** X10. The component [NewContainer] returns is set for containerd when
    the containerd socket exists, also when the docker socket exists
    too, and for docker only when the containerd socket is absent; its
    client type and its socket path always belong together, never stay
    empty, and the rest of the configuration is the default one. *)
Theorem NewContainer_component (comp : cvdocker.Component O DockerInfo) :
  NewContainer = cvdocker.Returned comp ->
  cvdocker.others (cvdocker.config comp) = cvdocker.others DefaultConfig
  /\ cvdocker.containerMap comp = ∅
  /\ ((fst (PathExist cvdocker.containerdSock) = true
       /\ cvdocker.clientType comp = "containerd"
       /\ cvdocker.ClientSocket (cvdocker.config comp) = cvdocker.containerdSock)
      \/ (fst (PathExist cvdocker.containerdSock) = false
          /\ fst (PathExist cvdocker.dockerSock) = true
          /\ cvdocker.clientType comp = "docker"
          /\ cvdocker.ClientSocket (cvdocker.config comp) = cvdocker.dockerSock)).
Proof.
  unfold cvdocker.NewContainer.
  destruct (PathExist cvdocker.dockerSock) as [d [ed|]]; [discriminate|].
  destruct (PathExist cvdocker.containerdSock) as [k [ek|]]; [discriminate|].
  destruct d, k; simpl; intros Hc; try discriminate;
    injection Hc as <-; simpl; repeat split; auto.
Qed.

(** X11. A panic of [NewContainer] has one of three causes, tried in this
    order: the docker probe failed; the containerd probe failed (the
    docker socket may well exist); neither socket exists. *)
Theorem NewContainer_panic_cause (msg : string) (fields : list cvdocker.elogField) :
  NewContainer = cvdocker.Panicked msg fields ->
  (exists e, snd (PathExist cvdocker.dockerSock) = Some e
             /\ msg = "docker sock fail" /\ fields = [cvdocker.FieldErr e])
  \/ (exists e, snd (PathExist cvdocker.dockerSock) = None
                /\ snd (PathExist cvdocker.containerdSock) = Some e
                /\ msg = "containerd sock fail" /\ fields = [cvdocker.FieldErr e])
  \/ (PathExist cvdocker.dockerSock = (false, None)
      /\ PathExist cvdocker.containerdSock = (false, None)
      /\ msg = "docker.sock and containerd.sock is empty"
      /\ fields = [cvdocker.FieldValue
                     "we need /run/containerd/containerd.sock or /var/run/docker.sock"]).
Proof.
  unfold cvdocker.NewContainer.
  destruct (PathExist cvdocker.dockerSock) as [d [ed|]].
  - intros Hp. injection Hp as <- <-. left. eauto.
  - destruct (PathExist cvdocker.containerdSock) as [k [ek|]].
    + intros Hp. injection Hp as <- <-. right. left. eauto.
    + destruct d, k; simpl; intros Hp; try discriminate.
      injection Hp as <- <-. right. right. auto.
Qed.

Context {S : Type}.
Variable Get : string -> cvdocker.Manager O DockerInfo S.

(** X12. Listing the containers through a component that [NewContainer]
    built: the client is the one registered as "containerd" when the
    containerd socket exists and the one registered as "docker" when it
    does not; it is run on the matching socket path before it is asked;
    its map is returned, and its error is a panic. *)
Theorem GetActiveContainers_of_NewContainer
    (comp : cvdocker.Component O DockerInfo) (s : S) :
  NewContainer = cvdocker.Returned comp ->
  let containerd := fst (PathExist cvdocker.containerdSock) in
  let obj := Get (if containerd then "containerd" else "docker") in
  let cfg := {| cvdocker.ClientSocket :=
                  if containerd then cvdocker.containerdSock else cvdocker.dockerSock;
                cvdocker.others := cvdocker.others DefaultConfig |} in
  let r := cvdocker.GetAllDockerInfo obj (cvdocker.Run obj cfg s) in
  cvdocker.GetActiveContainers Get comp s
  = (match snd (fst r) with
     | Some e => cvdocker.Panicked "containerdSockObj fetchAll fail" [cvdocker.FieldErr e]
     | None => cvdocker.Returned (fst (fst r))
     end, snd r).
Proof.
  unfold cvdocker.NewContainer.
  destruct (PathExist cvdocker.dockerSock) as [d [ed|]]; [discriminate|].
  destruct (PathExist cvdocker.containerdSock) as [k [ek|]]; [discriminate|].
  destruct d, k; simpl; intros Hc; try discriminate;
    injection Hc as <-; unfold cvdocker.GetActiveContainers; simpl;
    match goal with
    | |- context [cvdocker.GetAllDockerInfo ?m ?st] =>
      destruct (cvdocker.GetAllDockerInfo m st) as [[cm [e|]] s2]
    end; reflexivity.
Qed.
End DiscoveryFacts.

(** ** The further properties on concrete configurations *)

Lemma Check_permit_has_reason_witness :
  route_bypass (PS := Scenario.static) defaultChecker Scenario.read_T1 = true
  \/ exists w1,
      @CheckDomLockIfActWrite _ Scenario.env Scenario.read_T1 Scenario.allow_read_T1
        = (None, w1)
      /\ (value (@isRootUser _ Scenario.static Scenario.engine
                   (UserId Scenario.read_T1) w1) = true
          \/ exists items,
              Scenario.canonicalize Scenario.read_T1 = (items, None)
              /\ fst (fst (@enforcement _ Scenario.static Scenario.engine
                             defaultChecker items
                             (after (@isRootUser _ Scenario.static Scenario.engine
                                       (UserId Scenario.read_T1) w1)))) = true).
Proof.
  apply (@Check_permit_has_reason _ Scenario.static Scenario.engine Scenario.env
           defaultChecker Scenario.read_T1 Scenario.allow_read_T1).
  reflexivity.
Defined.

Lemma Check_error_taxonomy_witness :
  value (Scenario.check podTerminalChecker Scenario.read_T1 Scenario.empty)
    = Some (Errorf "no permission")
  /\ exists items,
    Scenario.canonicalize Scenario.read_T1 = (items, None)
    /\ engine_calls (calls (Scenario.check podTerminalChecker Scenario.read_T1 Scenario.empty))
       = [@enforcement_call Scenario.static podTerminalChecker items].
Proof.
  destruct (@Check_error_taxonomy _ Scenario.static Scenario.engine Scenario.env
              podTerminalChecker Scenario.read_T1 Scenario.empty (Errorf "no permission")
              eq_refl)
    as [[w1 Hgate] | [(items & cause & Hitems & _) | [_ Hengine]]];
    (split; [reflexivity|]).
  - discriminate Hgate.
  - discriminate Hitems.
  - exact Hengine.
Defined.

Lemma Check_invalid_never_enforced_witness :
  @invalid_request Scenario.static Cases.unknown_type = true
  /\ engine_calls
       (calls (Scenario.check defaultChecker Cases.unknown_type
                 Cases.allow_dashboard)) = []
  /\ value (Scenario.check defaultChecker Cases.unknown_type
              Cases.allow_dashboard)
     = Some (ErrorfW "ReqPermission is invalid. " (Errorf "ObjectType(dashboard) is invalid")).
Proof.
  split; [reflexivity|].
  destruct (@Check_invalid_never_enforced _ Scenario.static Scenario.engine Scenario.env
              defaultChecker Cases.unknown_type Cases.allow_dashboard eq_refl)
    as [Hengine Hresult].
  split; [exact Hengine|].
  destruct (Hresult Cases.allow_dashboard eq_refl eq_refl eq_refl)
    as (cause & Hcause & Hvalue).
  injection Hcause as <-. exact Hvalue.
Defined.

Lemma route_request_selects_bypass_witness :
  exists c,
    @newUserPmsCheckStrategy Scenario.static "route" "edit" = Some c
    /\ Scenario.check c Scenario.route_write_prod Scenario.prod_locked
       = (None, Scenario.prod_locked,
          [entry_log Scenario.route_write_prod; route_log]).
Proof.
  apply (@route_request_selects_bypass _ Scenario.static Scenario.engine Scenario.env
           Scenario.route_write_prod Scenario.prod_locked).
  - discriminate.
  - reflexivity.
Defined.

Lemma canonicalize_action_never_empty_witness :
  ReqAct (fst (Scenario.canonicalize Scenario.any_act_T1)) <> ""
  /\ fst (Scenario.canonicalize Scenario.table_anonymous)
     = {| ReqSub := ""; ReqObj := ""; ReqAct := ""; ReqDom := "" |}.
Proof.
  split.
  - apply (@canonicalize_action_never_empty Scenario.static Scenario.any_act_T1).
    reflexivity.
  - apply (@canonicalize_action_never_empty Scenario.static Scenario.table_anonymous).
    eexists. reflexivity.
Defined.

Lemma NewContainer_returns_iff_witness :
  exists comp : cvdocker.Component unit string,
    cvdocker.NewContainer {| cvdocker.ClientSocket := ""; cvdocker.others := tt |}
      (cvdocker.host true false None) = cvdocker.Returned comp.
Proof.
  apply (@NewContainer_returns_iff unit string).
  repeat split; reflexivity.
Defined.

Lemma NewContainer_component_witness :
  let comp : cvdocker.Component unit string :=
    {| cvdocker.config := {| cvdocker.ClientSocket := "/run/containerd/containerd.sock";
                             cvdocker.others := tt |};
       cvdocker.containerMap := ∅;
       cvdocker.clientType := "containerd" |} in
  cvdocker.NewContainer {| cvdocker.ClientSocket := ""; cvdocker.others := tt |}
    (cvdocker.host true true None) = cvdocker.Returned comp
  /\ fst (cvdocker.host true true None cvdocker.dockerSock) = true
  /\ cvdocker.clientType comp = "containerd"
  /\ cvdocker.ClientSocket (cvdocker.config comp) = cvdocker.containerdSock.
Proof.
  intros comp. split; [reflexivity|]. split; [reflexivity|].
  destruct (@NewContainer_component unit string
              {| cvdocker.ClientSocket := ""; cvdocker.others := tt |}
              (cvdocker.host true true None) comp eq_refl)
    as (_ & _ & [(_ & Htype & Hsock) | (Habsent & _)]).
  - split; assumption.
  - discriminate Habsent.
Defined.

Lemma NewContainer_panic_cause_witness :
  fst (cvdocker.host true true (Some cvdocker.containerdSock) cvdocker.dockerSock) = true
  /\ exists e,
      snd (cvdocker.host true true (Some cvdocker.containerdSock) cvdocker.containerdSock)
        = Some e
      /\ @cvdocker.NewContainer unit string
           {| cvdocker.ClientSocket := ""; cvdocker.others := tt |}
           (cvdocker.host true true (Some cvdocker.containerdSock))
         = cvdocker.Panicked "containerd sock fail" [cvdocker.FieldErr e].
Proof.
  split; [reflexivity|].
  destruct (@NewContainer_panic_cause unit string
              {| cvdocker.ClientSocket := ""; cvdocker.others := tt |}
              (cvdocker.host true true (Some cvdocker.containerdSock))
              "containerd sock fail"
              [cvdocker.FieldErr (Errorf "permission denied")] eq_refl)
    as [(e & Hd & _) | [(e & _ & Hk & _ & Hf) | (Hd & _)]].
  - discriminate Hd.
  - exists e. split; [exact Hk|]. now injection Hf as <-.
  - discriminate Hd.
Defined.

Lemma GetActiveContainers_of_NewContainer_witness :
  let comp : cvdocker.Component unit string :=
    {| cvdocker.config := {| cvdocker.ClientSocket := "/run/containerd/containerd.sock";
                             cvdocker.others := tt |};
       cvdocker.containerMap := ∅;
       cvdocker.clientType := "containerd" |} in
  cvdocker.GetActiveContainers cvdocker.client comp ""
  = (cvdocker.Returned {[ "containerd" := "/run/containerd/containerd.sock" ]},
     "/run/containerd/containerd.sock").
Proof.
  intros comp.
  apply (@GetActiveContainers_of_NewContainer unit string
           {| cvdocker.ClientSocket := ""; cvdocker.others := tt |}
           (cvdocker.host true true None) string cvdocker.client comp "").
  reflexivity.
Defined.
